(** * Xiaomi Aqara EU plugs: [zhaquirks/xiaomi/aqara/plug_eu.py]

    A shallow embedding of the quirk module: the signature and replacement
    tables of the eight v1 quirk classes, the v2 quirk of [lumi.plug.aeu001],
    the metering guard [PlugAEU001MeteringCluster._update_attribute] and the
    coroutines [remove_from_ep] and [OppleCluster.bind]. *)

From Stdlib Require Import ZArith Floats.PrimFloat Sorting.Sorted.
From stdpp Require Import gmap strings list fin_maps.

Local Open Scope string_scope.
Local Open Scope list_scope.
Local Open Scope Z_scope.

(* Python reads the literal 0.1 as the nearest binary64 value, as is done here. *)
#[local] Set Warnings "-inexact-float".

(** ** Names imported by the module *)

(** Cluster classes the module imports: the ZCL clusters of [zigpy.zcl] and
    the custom clusters of [zhaquirks.xiaomi]. *)
Inductive imported_cluster : Set :=
  | Alarms | AnalogInput | Basic | DeviceTemperature | GreenPowerProxy
  | Groups | Identify | OnOff | Ota | Scenes | Time
  | ElectricalMeasurement | TemperatureMeasurement | Metering
  | AnalogInputCluster | BasicCluster | ElectricalMeasurementCluster
  | MeteringCluster | XiaomiAqaraE1Cluster.

(** The values of the imported constants are fixed outside this module; the
    development is parametric in them. *)
Class Imports : Type := {
  imported_cluster_id : imported_cluster → Z;
  zha_PROFILE_ID : Z;
  zgp_PROFILE_ID : Z;
  zha_DeviceType_SMART_PLUG : Z;
  zgp_DeviceType_PROXY_BASIC : Z;
  LUMI : string;
  UnitOfPower_WATT : string;
  (** [MeteringCluster.CURRENT_SUMM_DELIVERED_ID] *)
  CURRENT_SUMM_DELIVERED_ID : Z
}.

Definition OPPLE_MFG_CODE : Z := 0x115F.

(** ** Data model *)

(** Cluster classes: the imported ones and the three declared here. *)
Inductive cluster_class : Set :=
  | Imported (c : imported_cluster)
  | OppleCluster
  | PlugAEU001Cluster
  | PlugAEU001MeteringCluster.
Coercion Imported : imported_cluster >-> cluster_class.

(** The imported class a cluster class takes its inherited attributes from:
    [OppleCluster(XiaomiAqaraE1Cluster)],
    [PlugAEU001Cluster(XiaomiAqaraE1Cluster)],
    [PlugAEU001MeteringCluster(MeteringCluster)]. *)
Definition imported_base (c : cluster_class) : imported_cluster :=
  match c with
  | Imported i => i
  | OppleCluster | PlugAEU001Cluster => XiaomiAqaraE1Cluster
  | PlugAEU001MeteringCluster => MeteringCluster
  end.

(** [C.cluster_id]: none of the three classes of the module sets it, so the
    attribute is the base class's. *)
Definition cluster_id {imports : Imports} (c : cluster_class) : Z :=
  imported_cluster_id (imported_base c).

(** An element of an [INPUT_CLUSTERS] or [OUTPUT_CLUSTERS] list: a cluster id
    or a cluster class. *)
Inductive cluster_entry : Set :=
  | ById (id : Z)
  | ByClass (c : cluster_class).

(** The dict of one endpoint; a key the source leaves out is [None]. *)
Record endpoint_dict : Set := {
  PROFILE_ID : option Z;
  DEVICE_TYPE : option Z;
  INPUT_CLUSTERS : option (list cluster_entry);
  OUTPUT_CLUSTERS : option (list cluster_entry)
}.

(** A [signature] or [replacement] dict. *)
Record quirk_dict : Type := {
  MODELS_INFO : option (list (string * string));
  ENDPOINTS : gmap Z endpoint_dict
}.

(** A v1 quirk class: its two class attributes. *)
Record custom_device : Type := {
  signature : quirk_dict;
  replacement : quirk_dict
}.

(** ZCL types used in the attribute tables, and enum classes as objects. *)
Inductive zcl_type : Set := uint8_t | Bool | Single.

Record enum_class : Set := {
  enum_mixin : zcl_type;
  enum_members : list (string * Z)
}.

Inductive attr_type : Set :=
  | Plain (t : zcl_type)
  | EnumType (e : enum_class).

(** [(name, type, is_manufacturer_specific)] *)
Definition attribute_def : Set := (string * attr_type * bool)%type.

(** A Python number literal: an [int] or a [float] (binary64). *)
Inductive py_number : Set :=
  | PyInt (z : Z)
  | PyFloat (f : float).

(** The entity methods of the quirk builder, with the keyword arguments
    that are particular to each; an argument the call leaves out is [None]. *)
Inductive entity_kind : Set :=
  | Switch (force_inverted : option bool)
  | Enum (enum_class_arg : enum_class)
  | Number (min_value max_value step : option py_number) (unit : option string).

Record entity : Set := {
  kind : entity_kind;
  attribute_name : string;
  entity_cluster_id : Z;
  translation_key : string;
  fallback_name : string
}.

(** One method call of the builder chain. *)
Inductive builder_call : Set :=
  | friendly_name (model manufacturer : string)
  | removes (id : Z) (endpoint_id : option Z)
  | adds (c : cluster_class)
  | replaces (c : cluster_class) (endpoint_id : option Z)
  | exposes (e : entity)
  | add_to_registry.

(** [QuirkBuilder(manufacturer, model)] followed by its chain of calls. *)
Record quirk_builder : Set := {
  qb_manufacturer : string;
  qb_model : string;
  qb_calls : list builder_call
}.

Definition entities (q : quirk_builder) : list entity :=
  omap (λ c, match c with exposes e => Some e | _ => None end) (qb_calls q).

Definition is_switch (e : entity) : bool :=
  match kind e with Switch _ => true | _ => false end.
Definition is_enum (e : entity) : bool :=
  match kind e with Enum _ => true | _ => false end.
Definition is_number (e : entity) : bool :=
  match kind e with Number _ _ _ _ => true | _ => false end.

(** An entity by its attribute, its method and the keyword arguments
    particular to the method. *)
Definition declared (e : entity) : string * entity_kind :=
  (attribute_name e, kind e).

(** ** The tables of the module *)

Section Tables.
Context {imports : Imports}.

Definition PlugMMEU01 : custom_device :=
  {| signature :=
       {| MODELS_INFO := Some [(LUMI, "lumi.plug.mmeu01")];
          ENDPOINTS :=
            <[1 := {| PROFILE_ID := Some zha_PROFILE_ID;
                      DEVICE_TYPE := Some zha_DeviceType_SMART_PLUG;
                      INPUT_CLUSTERS := Some
                            [ById (cluster_id Basic);
                             ById (cluster_id DeviceTemperature);
                             ById (cluster_id Identify);
                             ById (cluster_id Groups);
                             ById (cluster_id Scenes);
                             ById (cluster_id OnOff);
                             ById (cluster_id Alarms);
                             ById (cluster_id Metering);
                             ById (cluster_id ElectricalMeasurement)];
                      OUTPUT_CLUSTERS := Some
                            [ById (cluster_id Time);
                             ById (cluster_id Ota)] |}]>
            (<[242 := {| PROFILE_ID := Some zgp_PROFILE_ID;
                         DEVICE_TYPE := Some zgp_DeviceType_PROXY_BASIC;
                         INPUT_CLUSTERS := None;
                         OUTPUT_CLUSTERS := Some
                               [ById (cluster_id GreenPowerProxy)] |}]>
            ∅) |};
     replacement :=
       {| MODELS_INFO := None;
          ENDPOINTS :=
            <[1 := {| PROFILE_ID := Some zha_PROFILE_ID;
                      DEVICE_TYPE := Some zha_DeviceType_SMART_PLUG;
                      INPUT_CLUSTERS := Some
                            [ByClass BasicCluster;
                             ById (cluster_id DeviceTemperature);
                             ById (cluster_id Identify);
                             ById (cluster_id Groups);
                             ById (cluster_id Scenes);
                             ById (cluster_id OnOff);
                             ById (cluster_id Alarms);
                             ByClass MeteringCluster;
                             ByClass ElectricalMeasurementCluster;
                             ByClass OppleCluster];
                      OUTPUT_CLUSTERS := Some
                            [ById (cluster_id Time);
                             ById (cluster_id Ota)] |}]>
            (<[21 := {| PROFILE_ID := Some zha_PROFILE_ID;
                        DEVICE_TYPE := Some zha_DeviceType_SMART_PLUG;
                        INPUT_CLUSTERS := Some
                              [ByClass AnalogInputCluster];
                        OUTPUT_CLUSTERS := None |}]>
            (<[242 := {| PROFILE_ID := Some zgp_PROFILE_ID;
                         DEVICE_TYPE := Some zgp_DeviceType_PROXY_BASIC;
                         INPUT_CLUSTERS := None;
                         OUTPUT_CLUSTERS := Some
                               [ById (cluster_id GreenPowerProxy)] |}]>
            ∅)) |} |}.

Definition PlugMMEU01Alt1 : custom_device :=
  {| signature :=
       {| MODELS_INFO := MODELS_INFO (signature PlugMMEU01);
          ENDPOINTS :=
            <[1 := {| PROFILE_ID := Some zha_PROFILE_ID;
                      DEVICE_TYPE := Some zha_DeviceType_SMART_PLUG;
                      INPUT_CLUSTERS := Some
                            [ById (cluster_id Basic);
                             ById (cluster_id DeviceTemperature);
                             ById (cluster_id Identify);
                             ById (cluster_id Groups);
                             ById (cluster_id Scenes);
                             ById (cluster_id OnOff);
                             ById (cluster_id OppleCluster)];
                      OUTPUT_CLUSTERS := Some
                            [ById (cluster_id Time);
                             ById (cluster_id Ota)] |}]>
            (<[21 := {| PROFILE_ID := Some zha_PROFILE_ID;
                        DEVICE_TYPE := Some zha_DeviceType_SMART_PLUG;
                        INPUT_CLUSTERS := Some
                              [ById (cluster_id AnalogInput)];
                        OUTPUT_CLUSTERS := None |}]>
            (<[31 := {| PROFILE_ID := Some zha_PROFILE_ID;
                        DEVICE_TYPE := Some zha_DeviceType_SMART_PLUG;
                        INPUT_CLUSTERS := Some
                              [ById (cluster_id AnalogInput)];
                        OUTPUT_CLUSTERS := None |}]>
            (<[242 := {| PROFILE_ID := Some zgp_PROFILE_ID;
                         DEVICE_TYPE := Some zgp_DeviceType_PROXY_BASIC;
                         INPUT_CLUSTERS := None;
                         OUTPUT_CLUSTERS := Some
                               [ById (cluster_id GreenPowerProxy)] |}]>
            ∅))) |};
     replacement := replacement PlugMMEU01 |}.

Definition PlugMMEU01Alt2 : custom_device :=
  {| signature :=
       {| MODELS_INFO := MODELS_INFO (signature PlugMMEU01);
          ENDPOINTS :=
            <[1 := {| PROFILE_ID := Some zha_PROFILE_ID;
                      DEVICE_TYPE := Some zha_DeviceType_SMART_PLUG;
                      INPUT_CLUSTERS := Some
                            [ById (cluster_id Basic);
                             ById (cluster_id DeviceTemperature);
                             ById (cluster_id Identify);
                             ById (cluster_id Groups);
                             ById (cluster_id Scenes);
                             ById (cluster_id OnOff);
                             ById (cluster_id OppleCluster)];
                      OUTPUT_CLUSTERS := Some
                            [ById (cluster_id Time);
                             ById (cluster_id Ota)] |}]>
            (<[242 := {| PROFILE_ID := Some zgp_PROFILE_ID;
                         DEVICE_TYPE := Some zgp_DeviceType_PROXY_BASIC;
                         INPUT_CLUSTERS := None;
                         OUTPUT_CLUSTERS := Some
                               [ById (cluster_id GreenPowerProxy)] |}]>
            ∅) |};
     replacement := replacement PlugMMEU01 |}.

Definition PlugMMEU01Alt3 : custom_device :=
  {| signature :=
       {| MODELS_INFO := MODELS_INFO (signature PlugMMEU01);
          ENDPOINTS :=
            <[1 := {| PROFILE_ID := Some zha_PROFILE_ID;
                      DEVICE_TYPE := Some zha_DeviceType_SMART_PLUG;
                      INPUT_CLUSTERS := Some
                            [ById (cluster_id Basic);
                             ById (cluster_id DeviceTemperature);
                             ById (cluster_id Identify);
                             ById (cluster_id Groups);
                             ById (cluster_id Scenes);
                             ById (cluster_id OnOff);
                             ById (cluster_id OppleCluster)];
                      OUTPUT_CLUSTERS := Some
                            [ById (cluster_id Time);
                             ById (cluster_id Ota)] |}]>
            (<[21 := {| PROFILE_ID := Some zha_PROFILE_ID;
                        DEVICE_TYPE := Some zha_DeviceType_SMART_PLUG;
                        INPUT_CLUSTERS := Some
                              [ById (cluster_id AnalogInput)];
                        OUTPUT_CLUSTERS := None |}]>
            (<[22 := {| PROFILE_ID := Some zha_PROFILE_ID;
                        DEVICE_TYPE := Some zha_DeviceType_SMART_PLUG;
                        INPUT_CLUSTERS := Some
                              [ById (cluster_id AnalogInput)];
                        OUTPUT_CLUSTERS := None |}]>
            (<[242 := {| PROFILE_ID := Some zgp_PROFILE_ID;
                         DEVICE_TYPE := Some zgp_DeviceType_PROXY_BASIC;
                         INPUT_CLUSTERS := None;
                         OUTPUT_CLUSTERS := Some
                               [ById (cluster_id GreenPowerProxy)] |}]>
            ∅))) |};
     replacement := replacement PlugMMEU01 |}.

Definition PlugMAEU01 : custom_device :=
  {| signature :=
       {| MODELS_INFO := Some [(LUMI, "lumi.plug.maeu01")];
          ENDPOINTS := ENDPOINTS (signature PlugMMEU01) |};
     replacement := replacement PlugMMEU01 |}.

Definition PlugMAEU01Alt1 : custom_device :=
  {| signature :=
       {| MODELS_INFO := MODELS_INFO (signature PlugMAEU01);
          ENDPOINTS := ENDPOINTS (signature PlugMMEU01Alt1) |};
     replacement := replacement PlugMAEU01 |}.

Definition PlugMAEU01Alt2 : custom_device :=
  {| signature :=
       {| MODELS_INFO := MODELS_INFO (signature PlugMAEU01);
          ENDPOINTS := ENDPOINTS (signature PlugMMEU01Alt2) |};
     replacement := replacement PlugMAEU01 |}.

Definition PlugMAEU01Alt3 : custom_device :=
  {| signature :=
       {| MODELS_INFO := MODELS_INFO (signature PlugMAEU01);
          ENDPOINTS := ENDPOINTS (signature PlugMMEU01Alt3) |};
     replacement := replacement PlugMAEU01 |}.

End Tables.

(** ** Cluster attribute tables and the enum *)


(** [OppleCluster.attr_config] *)
Definition attr_config : gmap Z Z := <[0x0009 := 0x01]> ∅.

Inductive AqaraPowerOutageMemoryEnum : Set := On | Previous | Off | Inverted.

Definition member_name (m : AqaraPowerOutageMemoryEnum) : string :=
  match m with
  | On => "On" | Previous => "Previous" | Off => "Off" | Inverted => "Inverted"
  end.

Definition member_value (m : AqaraPowerOutageMemoryEnum) : Z :=
  match m with
  | On => 0x00
  | Previous => 0x01
  | Off => 0x02
  | Inverted => 0x03
  end.

(** The members in definition order, the order an [Enum] class iterates in. *)
Definition AqaraPowerOutageMemoryEnum_members : list AqaraPowerOutageMemoryEnum :=
  [On; Previous; Off; Inverted].

(** The class object, as it is passed around:
    [class AqaraPowerOutageMemoryEnum(types.uint8_t, Enum)]. *)
Definition AqaraPowerOutageMemoryEnum_class : enum_class :=
  {| enum_mixin := uint8_t;
     enum_members :=
       (λ m, (member_name m, member_value m)) <$> AqaraPowerOutageMemoryEnum_members |}.

Definition PlugAEU001Cluster_attributes : gmap Z attribute_def :=
  <[0x0200 := ("button_lock", Plain uint8_t, true)]>
  (<[0x0202 := ("charging_protection", Plain Bool, true)]>
  (<[0x0203 := ("led_indicator", Plain Bool, true)]>
  (<[0x0206 := ("charging_limit", Plain Single, true)]>
  (<[0x020B := ("overload_protection", Plain Single, true)]>
  (<[0x0517 := ("power_on_behavior", EnumType AqaraPowerOutageMemoryEnum_class, true)]>
   ∅))))).

(** ** The v2 quirk of [lumi.plug.aeu001] *)

Section Quirk.
Context {imports : Imports}.

Definition lumi_plug_aeu001 : quirk_builder :=
  {| qb_manufacturer := "Aqara";
     qb_model := "lumi.plug.aeu001";
     qb_calls :=
       [friendly_name "Wall Outlet H2 EU" "Aqara";
        removes (cluster_id TemperatureMeasurement) None;
        adds DeviceTemperature;
        removes (cluster_id OnOff) (Some 2);
        replaces BasicCluster None;
        replaces PlugAEU001MeteringCluster None;
        replaces ElectricalMeasurementCluster None;
        replaces PlugAEU001Cluster None;
        replaces AnalogInputCluster (Some 21);
        exposes
          {| kind := Switch (Some true);
             attribute_name := "button_lock";
             entity_cluster_id := cluster_id PlugAEU001Cluster;
             translation_key := "button_lock";
             fallback_name := "Button Lock" |};
        exposes
          {| kind := Enum AqaraPowerOutageMemoryEnum_class;
             attribute_name := "power_on_behavior";
             entity_cluster_id := cluster_id PlugAEU001Cluster;
             translation_key := "power_on_behavior";
             fallback_name := "Power On Behavior" |};
        exposes
          {| kind := Number (Some (PyInt 100)) (Some (PyInt 3840)) None
                       (Some UnitOfPower_WATT);
             attribute_name := "overload_protection";
             entity_cluster_id := cluster_id PlugAEU001Cluster;
             translation_key := "overload_protection";
             fallback_name := "Overload Protection" |};
        exposes
          {| kind := Switch None;
             attribute_name := "led_indicator";
             entity_cluster_id := cluster_id PlugAEU001Cluster;
             translation_key := "led_indicator";
             fallback_name := "LED Indicator" |};
        exposes
          {| kind := Switch None;
             attribute_name := "charging_protection";
             entity_cluster_id := cluster_id PlugAEU001Cluster;
             translation_key := "charging_protection";
             fallback_name := "Charging Protection" |};
        exposes
          {| kind := Number (Some (PyFloat 0.1)) (Some (PyInt 2))
                       (Some (PyFloat 0.1)) (Some UnitOfPower_WATT);
             attribute_name := "charging_limit";
             entity_cluster_id := cluster_id PlugAEU001Cluster;
             translation_key := "charging_limit";
             fallback_name := "Charging Limit" |};
        add_to_registry] |}.

End Quirk.

(** ** Calls into the framework *)

(** A coroutine object: calling [write_attributes] creates it, and nothing
    runs until it is awaited or scheduled. *)
Inductive coroutine : Type :=
  | write_attributes (attributes : gmap Z Z) (manufacturer : option Z).

(** What a run of the module's code does to the outside, in order. *)
Inductive call {Endpoint : Type} : Type :=
  | LoggerDebug (fmt : string) (args : list Z)
  | DevDebug (msg : string)
  | SuperUpdateAttribute (attrid value : Z)
  | SuperBind
  | CreateCatchingTask (coro : coroutine)
  | RemoveFromGroup (endpoint : Endpoint) (group_id : Z).
Arguments call : clear implicits.

(** The framework the clusters plug into.  [World] is everything mutable the
    framework holds for the device (the attribute cache of the cluster, the
    endpoints of the device, the event loop); a framework method takes the
    world to the world after the call, and completes or raises. *)
Class Framework (World Endpoint BindResult Exn : Type) : Type := {
  (** [self._attr_cache] *)
  _attr_cache : World → gmap Z Z;
  (** [self.endpoint.device.endpoints] *)
  endpoints : World → gmap Z Endpoint;
  (** [super()._update_attribute(attrid, value)] *)
  super_update_attribute : Z → Z → World → World * (Exn + unit);
  (** [await super().bind()] *)
  super_bind : World → World * (Exn + BindResult);
  (** [self.create_catching_task(coro)] *)
  create_catching_task : coroutine → World → World * (Exn + unit);
  (** [await endpoint.remove_from_group(group_id)] *)
  remove_from_group : Endpoint → Z → World → World * (Exn + unit)
}.

(** ** Function bodies: state, a log of calls, early return and exceptions *)

Inductive completion (Exn R A : Type) : Type :=
  | Normal (a : A)
  | Returned (r : R)
  | Raised (e : Exn).
Arguments Normal {Exn R A} a.
Arguments Returned {Exn R A} r.
Arguments Raised {Exn R A} e.

Section Body.
Context {World Endpoint BindResult Exn : Type}.

(** A statement in the body of a function that returns an [R]. *)
Definition body (R A : Type) : Type :=
  World → list (call Endpoint) → World * list (call Endpoint) * completion Exn R A.

#[export] Instance body_ret {R} : MRet (body R) :=
  λ A a w log, (w, log, Normal a).

#[export] Instance body_bind {R} : MBind (body R) :=
  λ A B f m w log,
    match m w log with
    | (w', log', Normal a) => f a w' log'
    | (w', log', Returned r) => (w', log', Returned r)
    | (w', log', Raised e) => (w', log', Raised e)
    end.

(** [return r] *)
Definition return_ {R A} (r : R) : body R A :=
  λ w log, (w, log, Returned r).

(** Reading the state. *)
Definition gets {R A} (f : World → A) : body R A :=
  λ w log, (w, log, Normal (f w)).

(** A logging call: recorded, and nothing else. *)
Definition logs {R} (c : call Endpoint) : body R unit :=
  λ w log, (w, log ++ [c], Normal tt).

(** A framework call: recorded, then the framework acts on the world. *)
Definition calls {R A} (c : call Endpoint) (method : World → World * (Exn + A)) :
    body R A :=
  λ w log,
    match method w with
    | (w', inr a) => (w', log ++ [c], Normal a)
    | (w', inl e) => (w', log ++ [c], Raised e)
    end.

(** Calling (or awaiting) a function of the module from another body:
    falling off the end of the callee and [return] both hand the value to
    the caller. *)
Definition invoke {R R'} (callee : body R' R') : body R R' :=
  λ w log,
    match callee w log with
    | (w', log', Normal r) | (w', log', Returned r) => (w', log', Normal r)
    | (w', log', Raised e) => (w', log', Raised e)
    end.

(** One call of a function from outside: the world after it, the calls
    it made, and its result or the exception that left it. *)
Definition run {R} (f : body R R) (w : World) :
    World * list (call Endpoint) * (Exn + R) :=
  match f w [] with
  | (w', log, Normal r) | (w', log, Returned r) => (w', log, inr r)
  | (w', log, Raised e) => (w', log, inl e)
  end.

End Body.
Arguments body : clear implicits.

(** ** The functions of the module *)

Section Code.
Context {World Endpoint BindResult Exn : Type}.
Context {imports : Imports} {framework : Framework World Endpoint BindResult Exn}.

(** A function of the module that returns an [R]. *)
Local Abbreviation def R := (body World Endpoint Exn R R).

Definition remove_from_ep : def unit :=
  endpoint ← gets (λ dev, endpoints dev !! 1);
  match endpoint with
  | Some endpoint =>
      logs (DevDebug "Removing endpoint 1 from group 0");;
      calls (RemoveFromGroup endpoint 0) (remove_from_group endpoint 0);;
      logs (DevDebug "Removed endpoint 1 from group 0")
  | None => mret tt
  end.

Definition OppleCluster_bind : def BindResult :=
  result ← calls SuperBind super_bind;
  calls (CreateCatchingTask (write_attributes attr_config (Some OPPLE_MFG_CODE)))
        (create_catching_task (write_attributes attr_config (Some OPPLE_MFG_CODE)));;
  invoke remove_from_ep;;
  return_ result.

Definition ignoring_attribute_update : string :=
  "Ignoring attribute update for %s: new value %s is less than current value %s".

Definition _update_attribute (attrid value : Z) : def unit :=
  (if decide (attrid = CURRENT_SUMM_DELIVERED_ID) then
     current_value ← gets (λ self, default 0 (_attr_cache self !! attrid));
     if decide (value < current_value) then
       logs (LoggerDebug ignoring_attribute_update [attrid; value; current_value]);;
       return_ tt
     else mret tt
   else mret tt);;
  calls (SuperUpdateAttribute attrid value) (super_update_attribute attrid value).

End Code.

(** ** Sequences of attribute updates *)

Section Updates.
Context {World Endpoint BindResult Exn : Type}.
Context {imports : Imports} {framework : Framework World Endpoint BindResult Exn}.

(** The world after one call of [_update_attribute], however it ends. *)
Definition after_update (w : World) (update : Z * Z) : World :=
  (run (_update_attribute update.1 update.2) w).1.1.

(** The world after a sequence of calls, first call first. *)
Definition after_updates (updates : list (Z * Z)) (w : World) : World :=
  foldl after_update w updates.

(** The summation value the cache holds, read the way the guard reads it. *)
Definition cached_summation (w : World) : Z :=
  default 0 (_attr_cache w !! CURRENT_SUMM_DELIVERED_ID).

(** An update that reaches the superclass: the one call, and whatever the
    superclass makes of it. *)
Definition forwarded (attrid value : Z) (w : World) :
    World * list (call Endpoint) * (Exn + unit) :=
  let '(w', r) := super_update_attribute attrid value w in
  (w', [SuperUpdateAttribute attrid value], r).

(** What the clusters rely on of the superclass update: it may store the
    value under the attribute id, and touches no other entry of the cache. *)
Definition caches_only_the_update : Prop :=
  ∀ attrid value w k,
    let w' := (super_update_attribute attrid value w).1 in
    _attr_cache w' !! k = _attr_cache w !! k
    ∨ (k = attrid ∧ _attr_cache w' !! k = Some value).

End Updates.

(** ** A reference instance

    The standard ZCL numbers for the imported constants (the descriptor
    comments of the module list most of them), and a small framework that
    caches attributes, keeps group memberships and queues scheduled tasks. *)

Definition zcl_cluster_id (c : imported_cluster) : Z :=
  match c with
  | Basic | BasicCluster => 0
  | DeviceTemperature => 2
  | Identify => 3
  | Groups => 4
  | Scenes => 5
  | OnOff => 6
  | Alarms => 9
  | Time => 10
  | AnalogInput | AnalogInputCluster => 12
  | Ota => 25
  | GreenPowerProxy => 33
  | TemperatureMeasurement => 1026
  | Metering | MeteringCluster => 1794
  | ElectricalMeasurement | ElectricalMeasurementCluster => 2820
  | XiaomiAqaraE1Cluster => 64704
  end.

Definition zcl_imports : Imports :=
  {| imported_cluster_id := zcl_cluster_id;
     zha_PROFILE_ID := 260;
     zgp_PROFILE_ID := 41440;
     zha_DeviceType_SMART_PLUG := 81;
     zgp_DeviceType_PROXY_BASIC := 97;
     LUMI := "LUMI";
     UnitOfPower_WATT := "W";
     CURRENT_SUMM_DELIVERED_ID := 0 |}.

Record ref_world : Type := {
  ref_cache : gmap Z Z;
  ref_endpoints : gmap Z Z;
  ref_memberships : list (Z * Z);
  ref_tasks : list coroutine
}.

Definition ref_framework : Framework ref_world Z Z string :=
  {| _attr_cache := ref_cache;
     endpoints := ref_endpoints;
     super_update_attribute attrid value w :=
       ({| ref_cache := <[attrid := value]> (ref_cache w);
           ref_endpoints := ref_endpoints w;
           ref_memberships := ref_memberships w;
           ref_tasks := ref_tasks w |}, inr tt);
     super_bind w := (w, inr 0);
     create_catching_task coro w :=
       ({| ref_cache := ref_cache w;
           ref_endpoints := ref_endpoints w;
           ref_memberships := ref_memberships w;
           ref_tasks := ref_tasks w ++ [coro] |}, inr tt);
     remove_from_group endpoint group_id w :=
       ({| ref_cache := ref_cache w;
           ref_endpoints := ref_endpoints w;
           ref_memberships :=
             filter (λ m, m ≠ (endpoint, group_id)) (ref_memberships w);
           ref_tasks := ref_tasks w |}, inr tt) |}.

(** A plug as it joins: endpoint 1 in group 0, a summation of 7 cached. *)
Definition ref_plug : ref_world :=
  {| ref_cache := <[0 := 7]> ∅;
     ref_endpoints := <[1 := 1]> (<[242 := 242]> ∅);
     ref_memberships := [(1, 0)];
     ref_tasks := [] |}.

(** That plug once the Opple cluster is bound: out of group 0, with the
    write of [attr_config] queued. *)
Definition ref_plug_bound : ref_world :=
  {| ref_cache := <[0 := 7]> ∅;
     ref_endpoints := <[1 := 1]> (<[242 := 242]> ∅);
     ref_memberships := [];
     ref_tasks := [write_attributes attr_config (Some OPPLE_MFG_CODE)] |}.

(** The same device with no endpoint 1 and an empty cache. *)
Definition ref_bare : ref_world :=
  {| ref_cache := ∅;
     ref_endpoints := <[242 := 242]> ∅;
     ref_memberships := [];
     ref_tasks := [] |}.

(** ** What a sequence of updates sends on, and what the tables refer to *)

Section UpdateLogs.
Context {World Endpoint BindResult Exn : Type}.
Context {imports : Imports} {framework : Framework World Endpoint BindResult Exn}.

(** The calls a sequence of [_update_attribute] calls makes, first call
    first; each call starts in the world the one before it left. *)
Fixpoint log_of_updates (updates : list (Z * Z)) (w : World) : list (call Endpoint) :=
  match updates with
  | [] => []
  | update :: updates =>
      (run (_update_attribute update.1 update.2) w).1.2
      ++ log_of_updates updates (after_update w update)
  end.

(** The summation values among the updates. *)
Definition summations (updates : list (Z * Z)) : list Z :=
  snd <$> filter (λ update, update.1 = CURRENT_SUMM_DELIVERED_ID) updates.

(** The summation values that reach the superclass in a log. *)
Definition forwarded_summations (log : list (call Endpoint)) : list Z :=
  omap (λ c, match c with
             | SuperUpdateAttribute attrid value =>
                 if decide (attrid = CURRENT_SUMM_DELIVERED_ID) then Some value else None
             | _ => None
             end) log.

(** A superclass update that does what zigpy's does to the cache:
    [self._attr_cache[attrid] = value]. *)
Definition caches_the_update : Prop :=
  ∀ attrid value w,
    _attr_cache (super_update_attribute attrid value w).1
    = <[attrid := value]> (_attr_cache w).

End UpdateLogs.

(** [AqaraPowerOutageMemoryEnum(value)]: the member with that value; [None]
    where Python raises [ValueError]. *)
Definition AqaraPowerOutageMemoryEnum_of_value (value : Z) :
    option AqaraPowerOutageMemoryEnum :=
  snd <$> list_find (λ m, member_value m = value) AqaraPowerOutageMemoryEnum_members.

(** The cluster id an entry of a cluster list stands for. *)
Definition entry_cluster_id {imports : Imports} (e : cluster_entry) : Z :=
  match e with
  | ById id => id
  | ByClass c => cluster_id c
  end.

(** The cluster ids of the input clusters an endpoint dict lists. *)
Definition input_cluster_ids {imports : Imports} (e : endpoint_dict) : list Z :=
  entry_cluster_id <$> default [] (INPUT_CLUSTERS e).

(** The custom clusters of [zhaquirks.xiaomi] keep the cluster id of the
    ZCL cluster each of them stands for. *)
Definition custom_clusters_keep_ids {imports : Imports} : Prop :=
  cluster_id BasicCluster = cluster_id Basic
  ∧ cluster_id MeteringCluster = cluster_id Metering
  ∧ cluster_id ElectricalMeasurementCluster = cluster_id ElectricalMeasurement
  ∧ cluster_id AnalogInputCluster = cluster_id AnalogInput.

(** What tells the signatures apart whatever the imported numbers are: the
    model names, and per endpoint how many input clusters it lists. *)
Definition signature_shape (s : quirk_dict) :
    option (list string) * gmap Z (option nat) :=
  ((λ models : list (string * string), models.*2) <$> MODELS_INFO s,
   (λ e : endpoint_dict, length <$> INPUT_CLUSTERS e) <$> ENDPOINTS s).

(** The reference framework with a device that does not answer: leaving a
    group times out. *)
Definition ref_framework_silent : Framework ref_world Z Z string :=
  {| _attr_cache := ref_cache;
     endpoints := ref_endpoints;
     super_update_attribute := super_update_attribute (Framework := ref_framework);
     super_bind := super_bind (Framework := ref_framework);
     create_catching_task := create_catching_task (Framework := ref_framework);
     remove_from_group endpoint group_id w := (w, inl "TimeoutError") |}.

(** The joined plug with the write of [attr_config] queued and endpoint 1
    still in group 0. *)
Definition ref_plug_scheduled : ref_world :=
  {| ref_cache := <[0 := 7]> ∅;
     ref_endpoints := <[1 := 1]> (<[242 := 242]> ∅);
     ref_memberships := [(1, 0)];
     ref_tasks := [write_attributes attr_config (Some OPPLE_MFG_CODE)] |}.

(** * Properties *)

(** ** The signature and replacement tables *)

Section TableFacts.
Context {imports : Imports}.

Lemma replacement_endpoint_1 :
  ENDPOINTS (replacement PlugMMEU01) !! 1 =
    Some {| PROFILE_ID := Some zha_PROFILE_ID;
            DEVICE_TYPE := Some zha_DeviceType_SMART_PLUG;
            INPUT_CLUSTERS := Some
              [ByClass BasicCluster;
               ById (cluster_id DeviceTemperature);
               ById (cluster_id Identify);
               ById (cluster_id Groups);
               ById (cluster_id Scenes);
               ById (cluster_id OnOff);
               ById (cluster_id Alarms);
               ByClass MeteringCluster;
               ByClass ElectricalMeasurementCluster;
               ByClass OppleCluster];
            OUTPUT_CLUSTERS := Some
              [ById (cluster_id Time); ById (cluster_id Ota)] |}.
Proof. cbn [PlugMMEU01 replacement ENDPOINTS]. apply lookup_insert_eq. Qed.

Lemma replacement_endpoint_ids :
  dom (ENDPOINTS (replacement PlugMMEU01)) = ({[1; 21; 242]} : gset Z).
Proof.
  cbn [PlugMMEU01 replacement ENDPOINTS].
  rewrite !dom_insert_L, dom_empty_L. set_solver.
Qed.

(** C4: the eight plug quirk classes share one replacement table, that of
    [PlugMMEU01]; it declares the endpoints 1, 21 and 242, and the input
    clusters of its endpoint 1 contain [BasicCluster], [MeteringCluster],
    [ElectricalMeasurementCluster] and [OppleCluster]. *)
Theorem replacement_is_shared :
  Forall (λ quirk, replacement quirk = replacement PlugMMEU01)
    [PlugMMEU01; PlugMMEU01Alt1; PlugMMEU01Alt2; PlugMMEU01Alt3;
     PlugMAEU01; PlugMAEU01Alt1; PlugMAEU01Alt2; PlugMAEU01Alt3]
  ∧ dom (ENDPOINTS (replacement PlugMMEU01)) = ({[1; 21; 242]} : gset Z)
  ∧ ∃ endpoint_1 inputs,
      ENDPOINTS (replacement PlugMMEU01) !! 1 = Some endpoint_1
      ∧ INPUT_CLUSTERS endpoint_1 = Some inputs
      ∧ ByClass BasicCluster ∈ inputs
      ∧ ByClass MeteringCluster ∈ inputs
      ∧ ByClass ElectricalMeasurementCluster ∈ inputs
      ∧ ByClass OppleCluster ∈ inputs.
Proof.
  split; [| split].
  - repeat constructor.
  - exact replacement_endpoint_ids.
  - eexists _, _. split; [exact replacement_endpoint_1 |].
    split; [reflexivity |].
    repeat split; apply list_elem_of_In; cbn; tauto.
Qed.

(** C7: each plug quirk class targets one model of the manufacturer
    [LUMI]: [lumi.plug.mmeu01] for [PlugMMEU01] and its three variants,
    [lumi.plug.maeu01] for [PlugMAEU01] and its three variants; and the
    signature endpoints of every [PlugMAEU01] class are those of the
    [PlugMMEU01] class of the same variant. *)
Theorem signatures_by_model :
  Forall (λ quirk, MODELS_INFO (signature quirk) = Some [(LUMI, "lumi.plug.mmeu01")])
    [PlugMMEU01; PlugMMEU01Alt1; PlugMMEU01Alt2; PlugMMEU01Alt3]
  ∧ Forall (λ quirk, MODELS_INFO (signature quirk) = Some [(LUMI, "lumi.plug.maeu01")])
      [PlugMAEU01; PlugMAEU01Alt1; PlugMAEU01Alt2; PlugMAEU01Alt3]
  ∧ Forall2 (λ maeu mmeu, ENDPOINTS (signature maeu) = ENDPOINTS (signature mmeu))
      [PlugMAEU01; PlugMAEU01Alt1; PlugMAEU01Alt2; PlugMAEU01Alt3]
      [PlugMMEU01; PlugMMEU01Alt1; PlugMMEU01Alt2; PlugMMEU01Alt3].
Proof. repeat split; repeat constructor. Qed.

End TableFacts.

(** ** The enum and the exposed entities *)

Lemma AqaraPowerOutageMemoryEnum_members_complete (m : AqaraPowerOutageMemoryEnum) :
  m ∈ AqaraPowerOutageMemoryEnum_members.
Proof. apply list_elem_of_In. destruct m; cbn; tauto. Qed.

Lemma AqaraPowerOutageMemoryEnum_members_NoDup :
  NoDup AqaraPowerOutageMemoryEnum_members.
Proof.
  unfold AqaraPowerOutageMemoryEnum_members.
  repeat (apply NoDup_cons_2; [rewrite list_elem_of_In; cbn; intuition discriminate |]).
  apply NoDup_nil_2.
Qed.

Section QuirkFacts.
Context {imports : Imports}.

(** C5: [AqaraPowerOutageMemoryEnum] has the four members On = 0,
    Previous = 1, Off = 2, Inverted = 3 and no other, and it is the enum
    class of the [power_on_behavior] attribute of [PlugAEU001Cluster], in
    the attribute table and in the one enum entity of the quirk. *)
Theorem power_outage_memory_enum :
  enum_members AqaraPowerOutageMemoryEnum_class =
    [("On", 0); ("Previous", 1); ("Off", 2); ("Inverted", 3)]
  ∧ (∀ m, m ∈ AqaraPowerOutageMemoryEnum_members)
  ∧ NoDup AqaraPowerOutageMemoryEnum_members
  ∧ length AqaraPowerOutageMemoryEnum_members = 4%nat
  ∧ PlugAEU001Cluster_attributes !! 0x0517 =
      Some ("power_on_behavior", EnumType AqaraPowerOutageMemoryEnum_class, true)
  ∧ filter is_enum (entities lumi_plug_aeu001) =
      [{| kind := Enum AqaraPowerOutageMemoryEnum_class;
          attribute_name := "power_on_behavior";
          entity_cluster_id := cluster_id PlugAEU001Cluster;
          translation_key := "power_on_behavior";
          fallback_name := "Power On Behavior" |}].
Proof.
  split; [reflexivity |].
  split; [exact AqaraPowerOutageMemoryEnum_members_complete |].
  split; [exact AqaraPowerOutageMemoryEnum_members_NoDup |].
  split; [reflexivity |].
  split; [| reflexivity].
  unfold PlugAEU001Cluster_attributes.
  repeat (rewrite lookup_insert_ne by done). apply lookup_insert_eq.
Qed.

(** C6: the quirk of [lumi.plug.aeu001] exposes six entities, all on the
    cluster id of [PlugAEU001Cluster]: the switches [button_lock] (with
    [force_inverted] true), [led_indicator] and [charging_protection]; the
    numbers [overload_protection] (100 to 3840, watts) and [charging_limit]
    (0.1 to 2 in steps of 0.1); the enum [power_on_behavior]. *)
Theorem exposed_entities :
  length (entities lumi_plug_aeu001) = 6%nat
  ∧ Forall (λ e, entity_cluster_id e = cluster_id PlugAEU001Cluster)
      (entities lumi_plug_aeu001)
  ∧ declared <$> filter is_switch (entities lumi_plug_aeu001) =
      [("button_lock", Switch (Some true));
       ("led_indicator", Switch None);
       ("charging_protection", Switch None)]
  ∧ declared <$> filter is_number (entities lumi_plug_aeu001) =
      [("overload_protection",
        Number (Some (PyInt 100)) (Some (PyInt 3840)) None (Some UnitOfPower_WATT));
       ("charging_limit",
        Number (Some (PyFloat 0.1)) (Some (PyInt 2)) (Some (PyFloat 0.1))
          (Some UnitOfPower_WATT))]
  ∧ declared <$> filter is_enum (entities lumi_plug_aeu001) =
      [("power_on_behavior", Enum AqaraPowerOutageMemoryEnum_class)].
Proof.
  split; [reflexivity |].
  split; [repeat constructor |].
  split; [reflexivity |].
  split; reflexivity.
Qed.

End QuirkFacts.

(** ** The metering guard *)

Ltac unfold_body :=
  cbv [run invoke mbind body_bind mret body_ret gets logs calls return_].

Section GuardFacts.
Context {World Endpoint BindResult Exn : Type}.
Context {imports : Imports} {framework : Framework World Endpoint BindResult Exn}.

Local Abbreviation ignored attrid value current_value w :=
  (w, [LoggerDebug ignoring_attribute_update [attrid; value; current_value]],
   @inr Exn unit tt).

(** A summation below the cached one: one line of debug log, no call of
    the superclass, the same world. *)
Lemma update_below_cached (value : Z) (w : World) :
  value < cached_summation w →
  run (_update_attribute CURRENT_SUMM_DELIVERED_ID value) w =
    ignored CURRENT_SUMM_DELIVERED_ID value (cached_summation w) w.
Proof.
  intros Hlt. unfold _update_attribute, cached_summation in *. unfold_body.
  rewrite decide_True by reflexivity. by rewrite decide_True.
Qed.

(** A summation not below the cached one goes to the superclass. *)
Lemma update_not_below_cached (value : Z) (w : World) :
  cached_summation w ≤ value →
  run (_update_attribute CURRENT_SUMM_DELIVERED_ID value) w =
    forwarded CURRENT_SUMM_DELIVERED_ID value w.
Proof.
  intros Hle. unfold _update_attribute, forwarded, cached_summation in *.
  unfold_body.
  rewrite decide_True by reflexivity. rewrite decide_False by lia.
  by destruct (super_update_attribute _ _ _) as [w' [e | []]].
Qed.

(** Any other attribute goes to the superclass. *)
Lemma update_other_attribute (attrid value : Z) (w : World) :
  attrid ≠ CURRENT_SUMM_DELIVERED_ID →
  run (_update_attribute attrid value) w = forwarded attrid value w.
Proof.
  intros Hne. unfold _update_attribute, forwarded. unfold_body.
  rewrite decide_False by done.
  by destruct (super_update_attribute _ _ _) as [w' [e | []]].
Qed.

(** C1: an update of [CURRENT_SUMM_DELIVERED_ID] whose value is below the
    cached one is ignored: the run makes no call of the superclass, only a
    line of debug log, and leaves the world, the cache with it, as it was.
    Any other update of that attribute is forwarded to the superclass.  The
    cached value is read as the source reads it, 0 when nothing is cached. *)
Theorem summation_guard (value : Z) (w : World) :
  let attrid := CURRENT_SUMM_DELIVERED_ID in
  let current_value := default 0 (_attr_cache w !! attrid) in
  run (_update_attribute attrid value) w =
    if decide (value < current_value)
    then ignored attrid value current_value w
    else forwarded attrid value w.
Proof.
  intros attrid current_value. subst attrid.
  fold (cached_summation w) in current_value. subst current_value.
  case_decide as Hcmp.
  - by apply update_below_cached.
  - apply update_not_below_cached. lia.
Qed.

(** C8: an update of an attribute other than [CURRENT_SUMM_DELIVERED_ID]
    is forwarded to the superclass with the same attribute id and value,
    whatever the cache holds; it is neither dropped nor changed. *)
Theorem other_attributes_pass (attrid value : Z) (w : World) :
  attrid ≠ CURRENT_SUMM_DELIVERED_ID →
  run (_update_attribute attrid value) w = forwarded attrid value w
  ∧ (run (_update_attribute attrid value) w).1.2 = [SuperUpdateAttribute attrid value].
Proof.
  intros Hne. rewrite update_other_attribute by done. split; [done |].
  unfold forwarded. by destruct (super_update_attribute _ _ _) as [w' r].
Qed.

(** C9: a summation equal to the cached one is forwarded, only lower ones
    are dropped; with nothing cached the guard compares with the default 0,
    so a first summation of 0 or more is forwarded. *)
Theorem equal_and_first_summations_pass (value : Z) (w : World) :
  (_attr_cache w !! CURRENT_SUMM_DELIVERED_ID = Some value →
     run (_update_attribute CURRENT_SUMM_DELIVERED_ID value) w =
       forwarded CURRENT_SUMM_DELIVERED_ID value w)
  ∧ (_attr_cache w !! CURRENT_SUMM_DELIVERED_ID = None →
       run (_update_attribute CURRENT_SUMM_DELIVERED_ID value) w =
         if decide (0 ≤ value)
         then forwarded CURRENT_SUMM_DELIVERED_ID value w
         else ignored CURRENT_SUMM_DELIVERED_ID value 0 w).
Proof.
  split; intros Hcache.
  - apply update_not_below_cached. unfold cached_summation.
    rewrite Hcache. reflexivity.
  - assert (Hzero : cached_summation w = 0)
      by (unfold cached_summation; by rewrite Hcache).
    case_decide as Hsign.
    + apply update_not_below_cached. lia.
    + rewrite update_below_cached by lia. by rewrite Hzero.
Qed.

(** One call never lowers the cached summation. *)
Lemma after_update_monotone (w : World) (update : Z * Z) :
  caches_only_the_update →
  cached_summation w ≤ cached_summation (after_update w update).
Proof.
  intros Hsuper. destruct update as [attrid value]. unfold after_update. simpl.
  assert (Hfwd : ∀ a, a ≠ CURRENT_SUMM_DELIVERED_ID ∨ cached_summation w ≤ value →
            a = attrid →
            cached_summation w ≤ cached_summation (forwarded a value w).1.1).
  { intros a Hcase ->. unfold forwarded.
    specialize (Hsuper attrid value w CURRENT_SUMM_DELIVERED_ID). simpl in Hsuper.
    destruct (super_update_attribute attrid value w) as [w' r]. simpl in *.
    unfold cached_summation.
    destruct Hsuper as [-> | [<- ->]]; [lia |].
    destruct Hcase as [? | Hle]; [done |]. by simpl. }
  destruct (decide (attrid = CURRENT_SUMM_DELIVERED_ID)) as [-> | Hne].
  - destruct (decide (value < cached_summation w)) as [Hlt | Hge].
    + rewrite update_below_cached by done. simpl. lia.
    + rewrite update_not_below_cached by lia. apply Hfwd; [right; lia | done].
  - rewrite update_other_attribute by done. apply Hfwd; [by left | done].
Qed.

Lemma after_updates_snoc (updates : list (Z * Z)) (update : Z * Z) (w : World) :
  after_updates (updates ++ [update]) w = after_update (after_updates updates w) update.
Proof. unfold after_updates. by rewrite foldl_app. Qed.

(** C2: along any sequence of calls of [_update_attribute] the cached
    summation never decreases: it is no lower after a call than before it,
    and no lower at the end than at the start.  The superclass update is
    taken to cache at most the update it is given. *)
Theorem cached_summation_monotone (updates : list (Z * Z)) (w : World) :
  caches_only_the_update →
  (∀ before update later, updates = before ++ update :: later →
     cached_summation (after_updates before w)
     ≤ cached_summation (after_updates (before ++ [update]) w))
  ∧ cached_summation w ≤ cached_summation (after_updates updates w).
Proof.
  intros Hsuper. split.
  - intros before update later _. rewrite after_updates_snoc.
    by apply after_update_monotone.
  - induction updates as [| update updates IH] using rev_ind; [done |].
    rewrite after_updates_snoc.
    etrans; [exact IH |]. by apply after_update_monotone.
Qed.

End GuardFacts.

(** ** Binding the Opple cluster *)

Section BindFacts.
Context {World Endpoint BindResult Exn : Type}.
Context {framework : Framework World Endpoint BindResult Exn}.

Local Abbreviation write_attr_config :=
  (write_attributes attr_config (Some OPPLE_MFG_CODE)).

(** With an endpoint 1, [remove_from_ep] awaits its leaving group 0,
    between two lines of debug log. *)
Lemma remove_from_ep_present (endpoint : Endpoint) (w w' : World) :
  endpoints w !! 1 = Some endpoint →
  remove_from_group endpoint 0 w = (w', inr tt) →
  run remove_from_ep w =
    (w', [DevDebug "Removing endpoint 1 from group 0";
          RemoveFromGroup endpoint 0;
          DevDebug "Removed endpoint 1 from group 0"], inr tt).
Proof.
  intros Hep Hleave. unfold remove_from_ep. unfold_body.
  by rewrite Hep, Hleave.
Qed.

(** C10: on a device with no endpoint 1 [remove_from_ep] returns normally,
    calls nothing ([remove_from_group] in particular) and raises nothing. *)
Theorem remove_from_ep_absent (w : World) :
  endpoints w !! 1 = None →
  run remove_from_ep w = (w, [], inr tt).
Proof.
  intros Hep. unfold remove_from_ep. unfold_body. by rewrite Hep.
Qed.

(** When the framework calls complete, so does [bind]. *)
Lemma bind_completes_with_endpoint_1
    (w w1 w2 w3 : World) (result : BindResult) (endpoint : Endpoint) :
  super_bind w = (w1, inr result) →
  create_catching_task write_attr_config w1 = (w2, inr tt) →
  endpoints w2 !! 1 = Some endpoint →
  remove_from_group endpoint 0 w2 = (w3, inr tt) →
  run OppleCluster_bind w =
    (w3, [SuperBind;
          CreateCatchingTask write_attr_config;
          DevDebug "Removing endpoint 1 from group 0";
          RemoveFromGroup endpoint 0;
          DevDebug "Removed endpoint 1 from group 0"], inr result).
Proof.
  intros Hbind Htask Hep Hleave. unfold OppleCluster_bind, remove_from_ep.
  unfold_body. by rewrite Hbind, Htask, Hep, Hleave.
Qed.

Lemma bind_completes_without_endpoint_1 (w w1 w2 : World) (result : BindResult) :
  super_bind w = (w1, inr result) →
  create_catching_task write_attr_config w1 = (w2, inr tt) →
  endpoints w2 !! 1 = None →
  run OppleCluster_bind w =
    (w2, [SuperBind; CreateCatchingTask write_attr_config], inr result).
Proof.
  intros Hbind Htask Hep. unfold OppleCluster_bind, remove_from_ep.
  unfold_body. by rewrite Hbind, Htask, Hep.
Qed.

(** An exception of the framework bind leaves [bind] at once: nothing is
    scheduled and no group is left. *)
Lemma bind_raises_with_super (w w1 : World) (e : Exn) :
  super_bind w = (w1, inl e) →
  run OppleCluster_bind w = (w1, [SuperBind], inl e).
Proof.
  intros Hbind. unfold OppleCluster_bind. unfold_body. by rewrite Hbind.
Qed.

(** C3: a [bind] that completes has awaited the framework bind, then
    scheduled the manufacturer-specific write of [attr_config], then, when
    the device has an endpoint 1, awaited that endpoint's leaving group 0;
    and it returns the result of the framework bind. *)
Theorem bind_schedules_write_then_leaves_group
    (w w' : World) (log : list (call Endpoint)) (result : BindResult) :
  run OppleCluster_bind w = (w', log, inr result) →
  ∃ w1 w2,
    super_bind w = (w1, inr result)
    ∧ create_catching_task write_attr_config w1 = (w2, inr tt)
    ∧ match endpoints w2 !! 1 with
      | Some endpoint =>
          remove_from_group endpoint 0 w2 = (w', inr tt)
          ∧ log = [SuperBind;
                   CreateCatchingTask write_attr_config;
                   DevDebug "Removing endpoint 1 from group 0";
                   RemoveFromGroup endpoint 0;
                   DevDebug "Removed endpoint 1 from group 0"]
      | None =>
          w' = w2
          ∧ log = [SuperBind; CreateCatchingTask write_attr_config]
      end.
Proof.
  unfold OppleCluster_bind, remove_from_ep. unfold_body.
  destruct (super_bind w) as [w1 [e | r]] eqn:Hbind; [done |].
  destruct (create_catching_task _ w1) as [w2 [e | []]] eqn:Htask; [done |].
  destruct (endpoints w2 !! 1) as [endpoint |] eqn:Hep.
  - destruct (remove_from_group endpoint 0 w2) as [w3 [e | []]] eqn:Hleave;
      [done |].
    intros [= -> <- ->]. exists w1, w2. by rewrite Hep.
  - intros [= <- <- ->]. exists w1, w2. by rewrite Hep.
Qed.

End BindFacts.

(** ** Sequences of updates under the caching superclass *)

Section SequenceFacts.
Context {World Endpoint BindResult Exn : Type}.
Context {imports : Imports} {framework : Framework World Endpoint BindResult Exn}.

(** The cache after one call, when the superclass caches the update. *)
Lemma cache_after_update (w : World) (attrid value : Z) :
  caches_the_update →
  _attr_cache (after_update w (attrid, value)) =
    if decide (attrid = CURRENT_SUMM_DELIVERED_ID ∧ value < cached_summation w)
    then _attr_cache w
    else <[attrid := value]> (_attr_cache w).
Proof.
  intros Hsuper. unfold after_update. simpl.
  assert (Hfwd : _attr_cache (forwarded attrid value w).1.1
                 = <[attrid := value]> (_attr_cache w)).
  { unfold forwarded. specialize (Hsuper attrid value w).
    by destruct (super_update_attribute attrid value w) as [w' r]. }
  case_decide as Hcase.
  - destruct Hcase as [-> Hlt]. by rewrite update_below_cached.
  - destruct (decide (attrid = CURRENT_SUMM_DELIVERED_ID)) as [-> | Hne].
    + rewrite update_not_below_cached; [done |].
      destruct (decide (value < cached_summation w)); [naive_solver | lia].
    + by rewrite update_other_attribute.
Qed.

Lemma cached_summation_after_update (w : World) (attrid value : Z) :
  caches_the_update →
  cached_summation (after_update w (attrid, value)) =
    if decide (attrid = CURRENT_SUMM_DELIVERED_ID)
    then cached_summation w `max` value
    else cached_summation w.
Proof.
  intros Hsuper. unfold cached_summation at 1.
  rewrite cache_after_update by done. fold (cached_summation w).
  destruct (decide (attrid = CURRENT_SUMM_DELIVERED_ID)) as [-> | Hne].
  - case_decide as Hcase.
    + fold (cached_summation w). lia.
    + rewrite lookup_insert_eq. simpl.
      destruct (decide (value < cached_summation w)); [naive_solver | lia].
  - rewrite decide_False by (by intros [? _]).
    by rewrite lookup_insert_ne.
Qed.

Lemma summations_snoc (updates : list (Z * Z)) (attrid value : Z) :
  summations (updates ++ [(attrid, value)]) =
    summations updates
    ++ (if decide (attrid = CURRENT_SUMM_DELIVERED_ID) then [value] else []).
Proof.
  unfold summations. rewrite filter_app, fmap_app. f_equal.
  rewrite filter_cons, filter_nil. simpl. by case_decide.
Qed.

(** The cached summation after a sequence, as a fold over its summations. *)
Lemma cached_summation_after_updates (updates : list (Z * Z)) (w : World) :
  caches_the_update →
  cached_summation (after_updates updates w) =
    foldl Z.max (cached_summation w) (summations updates).
Proof.
  intros Hsuper.
  induction updates as [| [attrid value] updates IH] using rev_ind; [done |].
  rewrite after_updates_snoc, summations_snoc, foldl_app.
  rewrite cached_summation_after_update by done. rewrite IH.
  by case_decide.
Qed.

Lemma foldl_max_is_maximum (z : Z) (values : list Z) :
  z ≤ foldl Z.max z values
  ∧ Forall (λ v, v ≤ foldl Z.max z values) values
  ∧ (foldl Z.max z values = z ∨ foldl Z.max z values ∈ values).
Proof.
  induction values as [| v values (Hstart & Hall & Hattained)] using rev_ind.
  { split; [done |]. split; [apply Forall_nil_2 | by left]. }
  rewrite foldl_app. simpl. split; [lia |]. split.
  - apply Forall_app. split.
    + eapply Forall_impl; [exact Hall |]. simpl. lia.
    + apply Forall_singleton. lia.
  - destruct (decide (v ≤ foldl Z.max z values)) as [Hle | Hgt].
    + replace (foldl Z.max z values `max` v) with (foldl Z.max z values) by lia.
      destruct Hattained as [-> | Hin]; [by left |].
      right. apply elem_of_app. by left.
    + replace (foldl Z.max z values `max` v) with v by lia.
      right. apply elem_of_app. right. apply list_elem_of_here.
Qed.

Lemma foldl_max_Permutation (z : Z) (values values' : list Z) :
  values ≡ₚ values' → foldl Z.max z values = foldl Z.max z values'.
Proof.
  intros Hperm. revert z.
  induction Hperm as [| v l l' _ IH | u v l | l l' l'' _ IH _ IH']; intros z; simpl.
  - done.
  - apply IH.
  - f_equal. lia.
  - by rewrite IH.
Qed.

(** X1: with a superclass that caches what it is given, the cached
    summation after a sequence of updates is the largest of the summation
    cached at the start and the summations in the sequence: it is one of
    them, and none of them is above it. *)
Theorem cached_summation_is_running_maximum (updates : list (Z * Z)) (w : World) :
  caches_the_update →
  let final := cached_summation (after_updates updates w) in
  cached_summation w ≤ final
  ∧ Forall (λ value, value ≤ final) (summations updates)
  ∧ (final = cached_summation w ∨ final ∈ summations updates).
Proof.
  intros Hsuper final. subst final.
  rewrite cached_summation_after_updates by done.
  apply foldl_max_is_maximum.
Qed.

(** X2: the order in which the updates arrive does not matter to the
    summation the cache ends with: any reordering of the sequence leaves
    the same cached summation. *)
Theorem cached_summation_ignores_order (updates updates' : list (Z * Z)) (w : World) :
  caches_the_update →
  updates ≡ₚ updates' →
  cached_summation (after_updates updates w)
  = cached_summation (after_updates updates' w).
Proof.
  intros Hsuper Hperm.
  rewrite !cached_summation_after_updates by done.
  apply foldl_max_Permutation. unfold summations. by rewrite Hperm.
Qed.

(** X3: the guard leaves every other attribute alone: after a sequence of
    updates the cache holds, for an attribute other than the summation, the
    value of the last update of that attribute, or what it held before when
    the sequence has none. *)
Theorem other_attributes_keep_last_update
    (updates : list (Z * Z)) (w : World) (attrid : Z) :
  caches_the_update →
  attrid ≠ CURRENT_SUMM_DELIVERED_ID →
  _attr_cache (after_updates updates w) !! attrid =
    match last (filter (λ update, update.1 = attrid) updates) with
    | Some update => Some update.2
    | None => _attr_cache w !! attrid
    end.
Proof.
  intros Hsuper Hne.
  induction updates as [| [a v] updates IH] using rev_ind; [done |].
  rewrite after_updates_snoc, cache_after_update by done.
  rewrite filter_app, filter_cons, filter_nil. simpl.
  destruct (decide (a = attrid)) as [-> | Hother].
  - rewrite last_snoc. simpl.
    rewrite decide_False by (by intros [? _]). apply lookup_insert_eq.
  - rewrite app_nil_r, <- IH.
    case_decide; [done |]. by apply lookup_insert_ne.
Qed.

Lemma forwarded_summations_app (log log' : list (call Endpoint)) :
  forwarded_summations (log ++ log') =
    forwarded_summations log ++ forwarded_summations log'.
Proof. apply omap_app. Qed.

(** X4: the summations that reach the superclass come in non-decreasing
    order and none is below the summation cached at the start: the list of
    the starting summation followed by the forwarded ones is sorted. *)
Theorem forwarded_summations_sorted (updates : list (Z * Z)) (w : World) :
  caches_the_update →
  Sorted Z.le (cached_summation w :: forwarded_summations (log_of_updates updates w)).
Proof.
  intros Hsuper. revert w.
  induction updates as [| [attrid value] updates IH]; intros w.
  { repeat constructor. }
  cbn [log_of_updates fst snd]. rewrite forwarded_summations_app.
  specialize (IH (after_update w (attrid, value))).
  rewrite cached_summation_after_update in IH by done.
  destruct (decide (attrid = CURRENT_SUMM_DELIVERED_ID)) as [-> | Hne].
  - destruct (decide (value < cached_summation w)) as [Hlt | Hge].
    + rewrite update_below_cached by done. simpl.
      by replace (cached_summation w `max` value) with (cached_summation w) in IH by lia.
    + rewrite update_not_below_cached by lia.
      replace (cached_summation w `max` value) with value in IH by lia.
      unfold forwarded.
      destruct (super_update_attribute CURRENT_SUMM_DELIVERED_ID value w) as [w' r].
      simpl. rewrite decide_True by done. simpl.
      constructor; [done |]. constructor. lia.
  - rewrite update_other_attribute by done. unfold forwarded.
    destruct (super_update_attribute attrid value w) as [w' r].
    simpl. by rewrite decide_False by done.
Qed.

(** X5: one call of [_update_attribute] makes exactly one call outwards:
    a line of debug log, or one superclass update with the attribute id and
    the value it was given; it never calls the superclass with anything
    else, for the summation attribute either. *)
Theorem update_makes_one_call (attrid value : Z) (w : World) :
  (∃ current_value,
     (run (_update_attribute attrid value) w).1.2
     = [LoggerDebug ignoring_attribute_update [attrid; value; current_value]])
  ∨ (run (_update_attribute attrid value) w).1.2 = [SuperUpdateAttribute attrid value].
Proof.
  assert (Hfwd : (forwarded attrid value w).1.2 = [SuperUpdateAttribute attrid value]).
  { unfold forwarded. by destruct (super_update_attribute attrid value w) as [w' r]. }
  destruct (decide (attrid = CURRENT_SUMM_DELIVERED_ID)) as [-> | Hne].
  - destruct (decide (value < cached_summation w)) as [Hlt | Hge].
    + left. exists (cached_summation w). by rewrite update_below_cached.
    + right. by rewrite update_not_below_cached by lia.
  - right. by rewrite update_other_attribute.
Qed.

End SequenceFacts.

(** ** Failures while leaving the group and while binding *)

Section CoroutineFacts.
Context {World Endpoint BindResult Exn : Type}.
Context {framework : Framework World Endpoint BindResult Exn}.

Local Abbreviation write_attr_config :=
  (write_attributes attr_config (Some OPPLE_MFG_CODE)).

(** X6: when leaving group 0 raises, [remove_from_ep] raises the same
    exception: the first line of debug log and the call are made, the
    closing line is not logged. *)
Theorem remove_from_ep_raises (endpoint : Endpoint) (w w' : World) (e : Exn) :
  endpoints w !! 1 = Some endpoint →
  remove_from_group endpoint 0 w = (w', inl e) →
  run remove_from_ep w =
    (w', [DevDebug "Removing endpoint 1 from group 0";
          RemoveFromGroup endpoint 0], inl e).
Proof.
  intros Hep Hleave. unfold remove_from_ep. unfold_body.
  by rewrite Hep, Hleave.
Qed.

(** The log of [remove_from_ep], whatever the outcome. *)
Lemma remove_from_ep_log (w : World) :
  (run remove_from_ep w).1.2 =
    match endpoints w !! 1 with
    | None => []
    | Some endpoint =>
        [DevDebug "Removing endpoint 1 from group 0"; RemoveFromGroup endpoint 0]
        ++ match (remove_from_group endpoint 0 w).2 with
           | inr _ => [DevDebug "Removed endpoint 1 from group 0"]
           | inl _ => []
           end
    end.
Proof.
  unfold remove_from_ep. unfold_body.
  destruct (endpoints w !! 1) as [endpoint |]; [| done].
  by destruct (remove_from_group endpoint 0 w) as [w' [e | []]].
Qed.

(** X7: whatever the device and the outcome, [remove_from_ep] touches
    nothing but endpoint 1 and group 0: besides lines of debug log, the only
    call it makes is the removal from group 0 of the endpoint the device
    holds under 1. *)
Theorem remove_from_ep_touches_only_endpoint_1 (w : World) (c : call Endpoint) :
  c ∈ (run remove_from_ep w).1.2 →
  (∃ msg, c = DevDebug msg)
  ∨ (∃ endpoint, c = RemoveFromGroup endpoint 0 ∧ endpoints w !! 1 = Some endpoint).
Proof.
  rewrite remove_from_ep_log.
  destruct (endpoints w !! 1) as [endpoint |]; [| by intros ?%elem_of_nil].
  destruct (remove_from_group endpoint 0 w).2; simpl; intros Hc;
    repeat (apply elem_of_cons in Hc; destruct Hc as [-> | Hc]);
    try (by apply elem_of_nil in Hc); eauto.
Qed.

(** X8: once the framework bind and the scheduling of the write have
    completed, [bind] is [remove_from_ep] run in the world they left: its log
    is theirs followed by that of [remove_from_ep], it raises what
    [remove_from_ep] raises, and returns the result of the framework bind
    when [remove_from_ep] returns. *)
Theorem bind_ends_with_remove_from_ep (w w1 w2 : World) (result : BindResult) :
  super_bind w = (w1, inr result) →
  create_catching_task write_attr_config w1 = (w2, inr tt) →
  run OppleCluster_bind w =
    let '(w3, log, outcome) := run remove_from_ep w2 in
    (w3, [SuperBind; CreateCatchingTask write_attr_config] ++ log,
     match outcome with inl e => inl e | inr _ => inr result end).
Proof.
  intros Hbind Htask. unfold OppleCluster_bind, remove_from_ep. unfold_body.
  rewrite Hbind, Htask.
  destruct (endpoints w2 !! 1) as [endpoint |]; [| done].
  by destruct (remove_from_group endpoint 0 w2) as [w3 [e | []]].
Qed.

(** X9: [bind] raises exactly when one of the three framework calls it
    makes raises, with that exception, and it stops there: after a failed
    framework bind nothing is scheduled, after a failed scheduling no group
    is left, and a failure to leave the group comes after the write was
    scheduled. *)
Theorem bind_raises_iff (w w' : World) (log : list (call Endpoint)) (e : Exn) :
  run OppleCluster_bind w = (w', log, inl e) ↔
    (super_bind w = (w', inl e) ∧ log = [SuperBind])
    ∨ (∃ w1 result,
         super_bind w = (w1, inr result)
         ∧ create_catching_task write_attr_config w1 = (w', inl e)
         ∧ log = [SuperBind; CreateCatchingTask write_attr_config])
    ∨ (∃ w1 result w2 endpoint,
         super_bind w = (w1, inr result)
         ∧ create_catching_task write_attr_config w1 = (w2, inr tt)
         ∧ endpoints w2 !! 1 = Some endpoint
         ∧ remove_from_group endpoint 0 w2 = (w', inl e)
         ∧ log = [SuperBind;
                  CreateCatchingTask write_attr_config;
                  DevDebug "Removing endpoint 1 from group 0";
                  RemoveFromGroup endpoint 0]).
Proof.
  unfold OppleCluster_bind, remove_from_ep. unfold_body. split.
  - destruct (super_bind w) as [w1 [e1 | result]] eqn:Hbind.
    { intros [= -> <- ->]. by left. }
    destruct (create_catching_task _ w1) as [w2 [e2 | []]] eqn:Htask.
    { intros [= -> <- ->]. right. left. by exists w1, result. }
    destruct (endpoints w2 !! 1) as [endpoint |] eqn:Hep; [| done].
    destruct (remove_from_group endpoint 0 w2) as [w3 [e3 | []]] eqn:Hleave; [| done].
    intros [= -> <- ->]. right. right. by exists w1, result, w2, endpoint.
  - intros [[Hbind ->] | [(w1 & result & Hbind & Htask & ->)
                         | (w1 & result & w2 & endpoint & Hbind & Htask & Hep & Hleave & ->)]].
    + by rewrite Hbind.
    + by rewrite Hbind, Htask.
    + by rewrite Hbind, Htask, Hep, Hleave.
Qed.



End CoroutineFacts.

(** ** The tables against each other *)

Section TableConsistency.
Context {imports : Imports}.

(** X11: no two of the eight quirk classes have the same signature,
    whatever the numbers of the imported constants: the model names and the
    number of input clusters per endpoint already tell them apart. *)
Theorem signatures_are_distinct :
  NoDup (signature <$>
    [PlugMMEU01; PlugMMEU01Alt1; PlugMMEU01Alt2; PlugMMEU01Alt3;
     PlugMAEU01; PlugMAEU01Alt1; PlugMAEU01Alt2; PlugMAEU01Alt3]).
Proof.
  apply (NoDup_fmap_1 signature_shape).
  apply (bool_decide_unpack _). vm_compute. reflexivity.
Qed.

Ltac lookup_endpoint H :=
  cbn [signature replacement ENDPOINTS PlugMMEU01 PlugMMEU01Alt1 PlugMMEU01Alt2
       PlugMMEU01Alt3 PlugMAEU01 PlugMAEU01Alt1 PlugMAEU01Alt2 PlugMAEU01Alt3] in H;
  repeat first
    [ rewrite lookup_insert_eq in H
    | rewrite lookup_insert_ne in H by done
    | rewrite lookup_empty in H ].

(** X12: on every endpoint that a quirk class both matches and replaces,
    the replacement keeps the profile, the device type and the output
    clusters, and its input clusters cover, by cluster id, all those of the
    signature: no cluster the device reported is dropped.  This needs the
    custom clusters to carry the ids of the clusters they stand for. *)
Theorem replacement_keeps_reported_clusters
    (quirk : custom_device) (k : Z) (reported replaced : endpoint_dict) :
  custom_clusters_keep_ids →
  quirk ∈ [PlugMMEU01; PlugMMEU01Alt1; PlugMMEU01Alt2; PlugMMEU01Alt3;
           PlugMAEU01; PlugMAEU01Alt1; PlugMAEU01Alt2; PlugMAEU01Alt3] →
  ENDPOINTS (signature quirk) !! k = Some reported →
  ENDPOINTS (replacement quirk) !! k = Some replaced →
  input_cluster_ids reported ⊆ input_cluster_ids replaced
  ∧ OUTPUT_CLUSTERS replaced = OUTPUT_CLUSTERS reported
  ∧ PROFILE_ID replaced = PROFILE_ID reported
  ∧ DEVICE_TYPE replaced = DEVICE_TYPE reported.
Proof.
  intros (Hbasic & Hmetering & Helectrical & Hanalog) Hquirk Hreported Hreplaced.
  assert (Hk : k = 1 ∨ k = 21 ∨ k = 242).
  { assert (Hdom : k ∈ dom (ENDPOINTS (replacement PlugMMEU01))).
    { apply elem_of_dom. exists replaced. rewrite <- Hreplaced.
      repeat (apply elem_of_cons in Hquirk; destruct Hquirk as [-> | Hquirk]);
        try reflexivity. by apply elem_of_nil in Hquirk. }
    rewrite replacement_endpoint_ids, !elem_of_union, !elem_of_singleton in Hdom.
    tauto. }
  repeat (apply elem_of_cons in Hquirk; destruct Hquirk as [-> | Hquirk]);
    try (by apply elem_of_nil in Hquirk);
    destruct Hk as [-> | [-> | ->]];
    lookup_endpoint Hreported; lookup_endpoint Hreplaced;
    try discriminate Hreported;
    injection Hreported as <-; injection Hreplaced as <-;
    (split; [| done]);
    unfold input_cluster_ids; cbn -[cluster_id];
    rewrite ?Hbasic, ?Hmetering, ?Helectrical, ?Hanalog;
    intros id; rewrite ?elem_of_cons, ?elem_of_nil; tauto.
Qed.

End TableConsistency.

(** ** The enum by value, and the entities against the attribute table *)

(** X13: looking a member of [AqaraPowerOutageMemoryEnum] up by its own
    value gives the member back, a value that is found is the value of the
    member found, and exactly the values outside 0..3 are not found; every
    member value fits the [uint8_t] the enum mixes in. *)
Theorem enum_by_value_round_trip :
  (∀ m, AqaraPowerOutageMemoryEnum_of_value (member_value m) = Some m)
  ∧ (∀ value m, AqaraPowerOutageMemoryEnum_of_value value = Some m →
       member_value m = value)
  ∧ (∀ value, AqaraPowerOutageMemoryEnum_of_value value = None ↔ value < 0 ∨ 3 < value)
  ∧ (∀ m, 0 ≤ member_value m < 256).
Proof.
  split; [by intros [] |].
  split.
  { intros value m. unfold AqaraPowerOutageMemoryEnum_of_value.
    intros [[i found] [Hfind [= ->]]]%fmap_Some.
    by apply list_find_Some in Hfind as (_ & Hvalue & _). }
  split; [| intros []; simpl; lia].
  intros value. unfold AqaraPowerOutageMemoryEnum_of_value.
  rewrite fmap_None, list_find_None.
  unfold AqaraPowerOutageMemoryEnum_members.
  rewrite !Forall_cons, Forall_nil. simpl. lia.
Qed.

Section EntityFacts.
Context {imports : Imports}.

(** X14: every entity the quirk exposes names an attribute that
    [PlugAEU001Cluster.attributes] declares, manufacturer-specific, and uses
    that name as its translation key; no attribute is exposed twice and none
    is left without an entity. *)
Theorem entities_match_attribute_table :
  Forall (λ e, translation_key e = attribute_name e
               ∧ ∃ attrid type,
                   PlugAEU001Cluster_attributes !! attrid
                   = Some (attribute_name e, type, true))
    (entities lumi_plug_aeu001)
  ∧ NoDup (attribute_name <$> entities lumi_plug_aeu001)
  ∧ size PlugAEU001Cluster_attributes = length (entities lumi_plug_aeu001).
Proof.
  split; [| split].
  - repeat (apply Forall_cons; split; [split; [reflexivity |] |]);
      [.. | apply Forall_nil_2].
    + by exists 0x0200, (Plain uint8_t).
    + by exists 0x0517, (EnumType AqaraPowerOutageMemoryEnum_class).
    + by exists 0x020B, (Plain Single).
    + by exists 0x0203, (Plain Bool).
    + by exists 0x0202, (Plain Bool).
    + by exists 0x0206, (Plain Single).
  - apply (bool_decide_unpack _). vm_compute. reflexivity.
  - vm_compute. reflexivity.
Qed.

End EntityFacts.

(** ** The properties on the reference instance *)

Section Reference.
#[local] Existing Instance zcl_imports.
#[local] Existing Instance ref_framework.

Lemma ref_framework_caches_only_the_update : caches_only_the_update.
Proof.
  intros attrid value w k. simpl.
  destruct (decide (k = attrid)) as [-> | Hne].
  - right. split; [done |]. apply lookup_insert_eq.
  - left. by apply lookup_insert_ne.
Qed.

(** With the ZCL numbers the signature of [PlugMMEU01] reads as the
    descriptor in the comment above it: endpoint 1 with profile 260, device
    type 81, input clusters 0, 2, 3, 4, 5, 6, 9, 1794, 2820 and output
    clusters 10, 25. *)
Example PlugMMEU01_descriptor_1 :
  ENDPOINTS (signature PlugMMEU01) !! 1 =
    Some {| PROFILE_ID := Some 260;
            DEVICE_TYPE := Some 81;
            INPUT_CLUSTERS :=
              Some (ById <$> [0; 2; 3; 4; 5; 6; 9; 1794; 2820]);
            OUTPUT_CLUSTERS := Some (ById <$> [10; 25]) |}.
Proof. reflexivity. Qed.

(** And the alternative signatures: input clusters 0, 2, 3, 4, 5, 6, 64704. *)
Example PlugMMEU01Alt1_descriptor_1 :
  ENDPOINTS (signature PlugMMEU01Alt1) !! 1 =
    Some {| PROFILE_ID := Some 260;
            DEVICE_TYPE := Some 81;
            INPUT_CLUSTERS := Some (ById <$> [0; 2; 3; 4; 5; 6; 64704]);
            OUTPUT_CLUSTERS := Some (ById <$> [10; 25]) |}.
Proof. reflexivity. Qed.

Example joined_plug_ignores_lower_summation :
  run (_update_attribute 0 5) ref_plug =
    (ref_plug, [LoggerDebug ignoring_attribute_update [0; 5; 7]], inr tt).
Proof. reflexivity. Qed.

Example summations_in_turn :
  cached_summation <$>
    [after_updates [(0, 9)] ref_plug;
     after_updates [(0, 9); (0, 3)] ref_plug;
     after_updates [(0, 9); (0, 3); (1, 2)] ref_plug;
     after_updates [(0, 9); (0, 3); (1, 2); (0, 12)] ref_plug]
  = [9; 9; 9; 12].
Proof. reflexivity. Qed.

Lemma other_attributes_pass_witness :
  3 ≠ CURRENT_SUMM_DELIVERED_ID
  ∧ run (_update_attribute 3 (-1)) ref_bare = forwarded 3 (-1) ref_bare
  ∧ (run (_update_attribute 3 (-1)) ref_bare).1.2 = [SuperUpdateAttribute 3 (-1)].
Proof.
  split; [discriminate |].
  apply (other_attributes_pass 3 (-1) ref_bare). discriminate.
Defined.

Lemma equal_and_first_summations_pass_witness :
  (_attr_cache ref_plug !! CURRENT_SUMM_DELIVERED_ID = Some 7
   ∧ run (_update_attribute CURRENT_SUMM_DELIVERED_ID 7) ref_plug =
       forwarded CURRENT_SUMM_DELIVERED_ID 7 ref_plug)
  ∧ (_attr_cache ref_bare !! CURRENT_SUMM_DELIVERED_ID = None
     ∧ run (_update_attribute CURRENT_SUMM_DELIVERED_ID 0) ref_bare =
         forwarded CURRENT_SUMM_DELIVERED_ID 0 ref_bare).
Proof.
  split.
  - split; [reflexivity |].
    apply (proj1 (equal_and_first_summations_pass 7 ref_plug)). reflexivity.
  - split; [reflexivity |].
    apply (proj2 (equal_and_first_summations_pass 0 ref_bare)). reflexivity.
Defined.

Lemma cached_summation_monotone_witness :
  caches_only_the_update
  ∧ cached_summation (after_updates [(0, 9)] ref_plug)
    ≤ cached_summation (after_updates ([(0, 9)] ++ [(0, 3)]) ref_plug)
  ∧ cached_summation ref_plug
    ≤ cached_summation (after_updates [(0, 9); (0, 3); (1, 2); (0, 12)] ref_plug).
Proof.
  split; [exact ref_framework_caches_only_the_update |].
  destruct (cached_summation_monotone [(0, 9); (0, 3); (1, 2); (0, 12)] ref_plug
              ref_framework_caches_only_the_update) as [Hstep Hends].
  split; [| exact Hends].
  apply (Hstep [(0, 9)] (0, 3) [(1, 2); (0, 12)]). reflexivity.
Defined.

Lemma remove_from_ep_absent_witness :
  endpoints ref_bare !! 1 = None
  ∧ run remove_from_ep ref_bare = (ref_bare, [], inr tt).
Proof.
  split; [reflexivity |].
  apply (remove_from_ep_absent ref_bare). reflexivity.
Defined.

Lemma bind_schedules_write_then_leaves_group_witness :
  run OppleCluster_bind ref_plug =
    (ref_plug_bound,
     [SuperBind;
      CreateCatchingTask (write_attributes attr_config (Some OPPLE_MFG_CODE));
      DevDebug "Removing endpoint 1 from group 0";
      RemoveFromGroup 1 0;
      DevDebug "Removed endpoint 1 from group 0"],
     inr 0)
  ∧ ∃ w1 w2,
      super_bind ref_plug = (w1, inr 0)
      ∧ create_catching_task (write_attributes attr_config (Some OPPLE_MFG_CODE)) w1
        = (w2, inr tt)
      ∧ match endpoints w2 !! 1 with
        | Some endpoint =>
            remove_from_group endpoint 0 w2 = (ref_plug_bound, inr tt)
            ∧ [SuperBind;
               CreateCatchingTask (write_attributes attr_config (Some OPPLE_MFG_CODE));
               DevDebug "Removing endpoint 1 from group 0";
               RemoveFromGroup 1 0;
               DevDebug "Removed endpoint 1 from group 0"]
              = [SuperBind;
                 CreateCatchingTask (write_attributes attr_config (Some OPPLE_MFG_CODE));
                 DevDebug "Removing endpoint 1 from group 0";
                 RemoveFromGroup endpoint 0;
                 DevDebug "Removed endpoint 1 from group 0"]
        | None =>
            ref_plug_bound = w2
            ∧ [SuperBind;
               CreateCatchingTask (write_attributes attr_config (Some OPPLE_MFG_CODE));
               DevDebug "Removing endpoint 1 from group 0";
               RemoveFromGroup 1 0;
               DevDebug "Removed endpoint 1 from group 0"]
              = [SuperBind;
                 CreateCatchingTask (write_attributes attr_config (Some OPPLE_MFG_CODE))]
        end.
Proof.
  split; [reflexivity |].
  apply (bind_schedules_write_then_leaves_group ref_plug ref_plug_bound). reflexivity.
Defined.

End Reference.

(** ** Sequences, tables and failures on the reference instance *)

Section ReferenceSequences.
#[local] Existing Instance zcl_imports.
#[local] Existing Instance ref_framework.

Lemma ref_framework_caches_the_update : caches_the_update.
Proof. by intros attrid value w. Qed.

Lemma cached_summation_is_running_maximum_witness :
  caches_the_update
  ∧ cached_summation (after_updates [(0, 9); (0, 3); (1, 2); (0, 12)] ref_plug) = 12
  ∧ cached_summation ref_plug
    ≤ cached_summation (after_updates [(0, 9); (0, 3); (1, 2); (0, 12)] ref_plug)
  ∧ Forall (λ value,
            value ≤ cached_summation
                      (after_updates [(0, 9); (0, 3); (1, 2); (0, 12)] ref_plug))
      (summations [(0, 9); (0, 3); (1, 2); (0, 12)])
  ∧ (cached_summation (after_updates [(0, 9); (0, 3); (1, 2); (0, 12)] ref_plug)
     = cached_summation ref_plug
     ∨ cached_summation (after_updates [(0, 9); (0, 3); (1, 2); (0, 12)] ref_plug)
       ∈ summations [(0, 9); (0, 3); (1, 2); (0, 12)]).
Proof.
  split; [exact ref_framework_caches_the_update |].
  split; [reflexivity |].
  apply (cached_summation_is_running_maximum
           [(0, 9); (0, 3); (1, 2); (0, 12)] ref_plug).
  exact ref_framework_caches_the_update.
Defined.

Lemma cached_summation_ignores_order_witness :
  caches_the_update
  ∧ [(0, 12); (0, 9)] ≡ₚ [(0, 9); (0, 12)]
  ∧ cached_summation (after_updates [(0, 12); (0, 9)] ref_plug)
    = cached_summation (after_updates [(0, 9); (0, 12)] ref_plug).
Proof.
  split; [exact ref_framework_caches_the_update |].
  split; [apply perm_swap |].
  apply (cached_summation_ignores_order [(0, 12); (0, 9)] [(0, 9); (0, 12)] ref_plug).
  - exact ref_framework_caches_the_update.
  - apply perm_swap.
Defined.

Lemma other_attributes_keep_last_update_witness :
  caches_the_update
  ∧ 1 ≠ CURRENT_SUMM_DELIVERED_ID
  ∧ _attr_cache (after_updates [(1, 2); (0, 3); (1, 5); (0, 4)] ref_plug) !! 1
    = match last (filter (λ update, update.1 = 1) [(1, 2); (0, 3); (1, 5); (0, 4)]) with
      | Some update => Some update.2
      | None => _attr_cache ref_plug !! 1
      end.
Proof.
  split; [exact ref_framework_caches_the_update |].
  split; [discriminate |].
  apply (other_attributes_keep_last_update
           [(1, 2); (0, 3); (1, 5); (0, 4)] ref_plug 1).
  - exact ref_framework_caches_the_update.
  - discriminate.
Defined.

Example forwarded_summations_of_joined_plug :
  forwarded_summations (log_of_updates [(0, 9); (0, 3); (1, 2); (0, 12); (0, 12)] ref_plug)
  = [9; 12; 12].
Proof. reflexivity. Qed.

Lemma forwarded_summations_sorted_witness :
  caches_the_update
  ∧ Sorted Z.le
      (cached_summation ref_plug
       :: forwarded_summations
            (log_of_updates [(0, 9); (0, 3); (1, 2); (0, 12); (0, 12)] ref_plug)).
Proof.
  split; [exact ref_framework_caches_the_update |].
  apply (forwarded_summations_sorted
           [(0, 9); (0, 3); (1, 2); (0, 12); (0, 12)] ref_plug).
  exact ref_framework_caches_the_update.
Defined.

Lemma remove_from_ep_touches_only_endpoint_1_witness :
  RemoveFromGroup 1 0 ∈ (run remove_from_ep ref_plug).1.2
  ∧ ((∃ msg, RemoveFromGroup 1 0 = DevDebug msg)
     ∨ (∃ endpoint, RemoveFromGroup 1 0 = RemoveFromGroup endpoint 0
                    ∧ endpoints ref_plug !! 1 = Some endpoint)).
Proof.
  assert (Hcall : RemoveFromGroup 1 0 ∈ (run remove_from_ep ref_plug).1.2)
    by (apply list_elem_of_further, list_elem_of_here).
  split; [exact Hcall |].
  exact (remove_from_ep_touches_only_endpoint_1 ref_plug (RemoveFromGroup 1 0) Hcall).
Defined.


Lemma zcl_custom_clusters_keep_ids : custom_clusters_keep_ids.
Proof. by repeat split. Qed.

Lemma replacement_keeps_reported_clusters_witness :
  let reported :=
    {| PROFILE_ID := Some 260; DEVICE_TYPE := Some 81;
       INPUT_CLUSTERS := Some [ById 12]; OUTPUT_CLUSTERS := None |} in
  let replaced :=
    {| PROFILE_ID := Some 260; DEVICE_TYPE := Some 81;
       INPUT_CLUSTERS := Some [ByClass AnalogInputCluster];
       OUTPUT_CLUSTERS := None |} in
  custom_clusters_keep_ids
  ∧ ENDPOINTS (signature PlugMMEU01Alt1) !! 21 = Some reported
  ∧ ENDPOINTS (replacement PlugMMEU01Alt1) !! 21 = Some replaced
  ∧ input_cluster_ids reported ⊆ input_cluster_ids replaced
  ∧ OUTPUT_CLUSTERS replaced = OUTPUT_CLUSTERS reported
  ∧ PROFILE_ID replaced = PROFILE_ID reported
  ∧ DEVICE_TYPE replaced = DEVICE_TYPE reported.
Proof.
  intros reported replaced.
  split; [exact zcl_custom_clusters_keep_ids |].
  split; [reflexivity |]. split; [reflexivity |].
  apply (replacement_keeps_reported_clusters PlugMMEU01Alt1 21 reported replaced).
  - exact zcl_custom_clusters_keep_ids.
  - apply list_elem_of_further, list_elem_of_here.
  - reflexivity.
  - reflexivity.
Defined.

End ReferenceSequences.

Section ReferenceSilent.
#[local] Existing Instance ref_framework_silent.

Lemma remove_from_ep_raises_witness :
  endpoints ref_plug !! 1 = Some 1
  ∧ remove_from_group 1 0 ref_plug = (ref_plug, inl "TimeoutError")
  ∧ run remove_from_ep ref_plug =
      (ref_plug, [DevDebug "Removing endpoint 1 from group 0"; RemoveFromGroup 1 0],
       inl "TimeoutError").
Proof.
  split; [reflexivity |]. split; [reflexivity |].
  apply (remove_from_ep_raises 1 ref_plug ref_plug "TimeoutError"); reflexivity.
Defined.

Lemma bind_ends_with_remove_from_ep_witness :
  super_bind ref_plug = (ref_plug, inr 0)
  ∧ create_catching_task (write_attributes attr_config (Some OPPLE_MFG_CODE)) ref_plug
    = (ref_plug_scheduled, inr tt)
  ∧ run OppleCluster_bind ref_plug =
      (ref_plug_scheduled,
       [SuperBind;
        CreateCatchingTask (write_attributes attr_config (Some OPPLE_MFG_CODE));
        DevDebug "Removing endpoint 1 from group 0";
        RemoveFromGroup 1 0],
       inl "TimeoutError").
Proof.
  split; [reflexivity |]. split; [reflexivity |].
  etrans;
    [apply (bind_ends_with_remove_from_ep ref_plug ref_plug ref_plug_scheduled 0) |];
    reflexivity.
Defined.

Lemma bind_raises_iff_witness :
  run OppleCluster_bind ref_plug =
    (ref_plug_scheduled,
     [SuperBind;
      CreateCatchingTask (write_attributes attr_config (Some OPPLE_MFG_CODE));
      DevDebug "Removing endpoint 1 from group 0";
      RemoveFromGroup 1 0],
     inl "TimeoutError").
Proof.
  apply (proj2 (bind_raises_iff ref_plug ref_plug_scheduled _ "TimeoutError")).
  right. right. by exists ref_plug, 0, ref_plug_scheduled, 1.
Defined.

End ReferenceSilent.
